(** * Dumux::FluidState: the abstract fluid-state contract

    A shallow embedding of [dumux/material/fluidstate.hh].  The header
    defines one class template, [FluidState<Scalar, Implementation>], used
    as the base of a concrete fluid state in the curiously recurring
    template pattern: a constructor holding a dead block that names three
    constants of [Implementation], three unnamed enumerations, nine [const]
    accessors whose bodies throw [Dune::NotImplemented], and two protected
    casts of [this] to the implementing type.

    The file has three layers: a small model of the C++ the header relies
    on (values, exceptions, objects behind references, class scopes), the
    members of the class translated one by one, and the properties. *)

From Stdlib Require Import ZArith String List Bool Lia.
Import ListNotations.

Local Open Scope string_scope.
Local Open Scope Z_scope.

(* ===================================================================== *)
(** * The C++ side: values, exceptions, objects and class scopes *)
(* ===================================================================== *)

Module Cxx.

(** [int]: every [int] value is an integer; the members below never do
    arithmetic on one, so no wrap-around is involved. *)
Definition int : Type := Z.

(** The condition of an [if]: an [int] converts to [true] unless it is 0. *)
Definition truth (n : int) : bool := negb (n =? 0).

(** A thrown object: the exception class as written at the throw site, and
    the message it was given. *)
Record exception : Type := Exception {
  exc_class : string;
  exc_message : string
}.

(** How a call ends: with a value, or by throwing. *)
Inductive outcome (A : Type) : Type :=
| Returned (a : A)
| Thrown (e : exception).

Arguments Returned {A} a.
Arguments Thrown {A} e.

(** Objects live at locations.  A reference names a location, the class
    through which the object is seen, and whether it is [const]. *)
Definition loc : Type := nat.

Inductive static_type : Type :=
| AsFluidState       (* FluidState<Scalar, Implementation> *)
| AsImplementation.  (* Implementation *)

Inductive cv : Type := Mutable | Const.

Record ref : Type := Ref {
  target : loc;
  seen_as : static_type;
  qualifier : cv
}.

Section State.

(** The data of a complete object of the implementing class. *)
Variable Obj : Type.

(** The program state: the objects, and the assignments to local
    variables executed so far, oldest first. *)
Record world : Type := World {
  heap : loc -> option Obj;
  assigned : list (string * int)
}.

(** A computation reads and writes the state and ends in an outcome;
    the state survives a throw. *)
Definition M (A : Type) : Type := world -> outcome A * world.

Definition ret {A : Type} (a : A) : M A :=
  fun w => (Returned a, w).

Definition bind {A B : Type} (c : M A) (k : A -> M B) : M B :=
  fun w =>
    match c w with
    | (Returned a, w') => k a w'
    | (Thrown e, w') => (Thrown e, w')
    end.

Definition throw {A : Type} (e : exception) : M A :=
  fun w => (Thrown e, w).

(** [x = v;] on a local variable [x]. *)
Definition assign (x : string) (v : int) : M unit :=
  fun w => (Returned tt, World (heap w) (assigned w ++ [(x, v)])).

(** Reading the object behind a reference. *)
Definition load (r : ref) (w : world) : option Obj := heap w (target r).

(** Writing the object behind a reference; a [const] reference gives no
    write access. *)
Definition store (r : ref) (v : Obj) (w : world) : option world :=
  match qualifier r with
  | Const => None
  | Mutable =>
      Some (World (fun l => if Nat.eqb l (target r) then Some v else heap w l)
                  (assigned w))
  end.

End State.

Arguments World {Obj} heap assigned.
Arguments heap {Obj} w.
Arguments assigned {Obj} w.
Arguments ret {Obj A} a.
Arguments bind {Obj A B} c k.
Arguments throw {Obj A} e.
Arguments assign {Obj} x v.
Arguments load {Obj} r w.
Arguments store {Obj} r v w.

(** ** Class scopes *)

(** The enumerators of one [enum { a, b, ... }] without initialisers: the
    first has value 0 and each next one is one more. *)
Definition enumerators (names : list string) : list (string * int) :=
  combine names (map Z.of_nat (seq 0 (List.length names))).

(** Access to a member, and to a base class. *)
Inductive access_specifier : Type :=
| acc_public
| acc_protected
| acc_private.

(** What a class declares in its own scope: the members that can be read
    as an [int] (enumerators and static data members of arithmetic type)
    with their values, the names of its other members (functions, types,
    data members of an object), the access of each member by name, and
    whether the class declares the contract instantiated on the
    implementing class, [FluidState<Scalar, Implementation>], a friend. *)
Record scope : Type := Scope {
  constants : list (string * int);
  others : list string;
  access_of : string -> access_specifier;
  befriends_contract : bool
}.

(** A class: its own scope and, for a derived class, how it derives from
    its base and the base.  One base at most. *)
Inductive class_decl : Type :=
| Root (s : scope)
| Derived (s : scope) (how : access_specifier) (base : class_decl).

Definition scope_of (C : class_decl) : scope :=
  match C with
  | Root s => s
  | Derived s _ _ => s
  end.

Definition members_of (C : class_decl) : list (string * int) :=
  constants (scope_of C).

Fixpoint assoc (x : string) (ms : list (string * int)) : option int :=
  match ms with
  | [] => None
  | (y, v) :: ms' => if String.eqb x y then Some v else assoc x ms'
  end.

Definition declared_in (s : scope) (x : string) : bool :=
  match assoc x (constants s) with
  | Some _ => true
  | None => existsb (String.eqb x) (others s)
  end.

(** Whether a class declares [x] itself. *)
Definition declares (C : class_decl) (x : string) : bool :=
  declared_in (scope_of C) x.

(** [C::x], name lookup alone: the class's own scope first (a declaration
    there hides the base's), then the base class.  The result is the value
    of the member found when it can be read as an [int]. *)
Fixpoint qualified_lookup (C : class_decl) (x : string) : option int :=
  match C with
  | Root s => assoc x (constants s)
  | Derived s _ B =>
      if declared_in s x then assoc x (constants s)
      else qualified_lookup B x
  end.

(** The access a member has in a class that inherits it. *)
Definition inherit (how a : access_specifier) : access_specifier :=
  match how with
  | acc_public => a
  | acc_protected => acc_protected
  | acc_private => acc_private
  end.

(** The access of the member [C::x] as a member of [C]; [None] when there
    is no such member or when it is a private member of a base, which is
    inaccessible in the derived class. *)
Fixpoint access_in (C : class_decl) (x : string) : option access_specifier :=
  match C with
  | Root s => if declared_in s x then Some (access_of s x) else None
  | Derived s how B =>
      if declared_in s x then Some (access_of s x)
      else match access_in B x with
           | None | Some acc_private => None
           | Some a => Some (inherit how a)
           end
  end.

(** Access checking of [C::x] at a point inside a member of the contract,
    which is neither [C] nor derived from it.  A member named in [C] can
    be used there when it is public as a member of [C], or is private or
    protected as a member of [C] and [C] befriends the contract, or can be
    used when named in a base of [C] that is accessible there.  A direct
    base is accessible when it is a public base or [C] befriends the
    contract; an indirect base also when [C] befriends the contract and a
    public member of that base would still be a member of [C].  The second
    component says whether the member can be used when named in [C] or in
    one of the bases of [C] whose public members are members of [C]. *)
Fixpoint contract_access (C : class_decl) (x : string) : bool * bool :=
  let granted (s : scope) (a : option access_specifier) : bool :=
    match a with
    | Some acc_public => true
    | Some _ => befriends_contract s
    | None => false
    end in
  match C with
  | Root s =>
      let here := granted s (access_in C x) in (here, here)
  | Derived s how B =>
      let (in_base, in_bases) := contract_access B x in
      let inherited := negb (declared_in s x) in
      let here :=
        granted s (access_in C x)
        || (inherited &&
            ((match how with acc_public => true | _ => false end && in_base)
             || (befriends_contract s && in_bases))) in
      (here,
       here
       || (inherited &&
           match how with acc_private => false | _ => true end && in_bases))
  end.

Definition accessible_from_contract (C : class_decl) (x : string) : bool :=
  fst (contract_access C x).

(** What [C::x] gives inside a member of the contract: the value of the
    member found, when it can be read as an [int] and may be accessed. *)
Definition contract_reads (C : class_decl) (x : string) : option int :=
  if accessible_from_contract C x then qualified_lookup C x else None.

(** ** Text *)

(** [contains s t]: [t] occurs in [s]. *)
Fixpoint contains (s t : string) : bool :=
  String.prefix t s ||
  match s with
  | EmptyString => false
  | String _ s' => contains s' t
  end.

(** ** Statements *)

(** The statements a member-function body is made of, once the template
    is instantiated and the constants it names have their values.
    [ReturnThis t q] returns the object [this] points to, cast to the
    class [t], as a reference that is [const] or not. *)
Inductive stmt : Type :=
| Skip
| DeclInt (x : string)
| Assign (x : string) (v : int)
| Seq (s1 s2 : stmt)
| If (c : int) (s : stmt)
| While (c : int) (s : stmt)
| Throw (E m : string)
| ReturnThis (t : static_type) (q : cv).

(** How a statement ends. *)
Inductive completion : Type :=
| Normal
| Returns (r : ref)
| Throws (e : exception).

(** Running a statement with a bound on the number of nested steps;
    [None] when the bound is reached before the statement ends. *)
Fixpoint exec {Obj : Type} (fuel : nat) (this : ref) (s : stmt)
         (w : world Obj) : option (completion * world Obj) :=
  match fuel with
  | O => None
  | S n =>
      match s with
      | Skip => Some (Normal, w)
      | DeclInt _ => Some (Normal, w)
      | Assign x v => Some (Normal, snd (assign x v w))
      | Seq s1 s2 =>
          match exec n this s1 w with
          | Some (Normal, w') => exec n this s2 w'
          | r => r
          end
      | If c s1 =>
          if truth c then exec n this s1 w else Some (Normal, w)
      | While c s1 =>
          if truth c
          then match exec n this s1 w with
               | Some (Normal, w') => exec n this (While c s1) w'
               | r => r
               end
          else Some (Normal, w)
      | Throw E m => Some (Throws (Exception E m), w)
      | ReturnThis t q => Some (Returns (Ref (target this) t q), w)
      end
  end.

(** A statement without a loop. *)
Fixpoint straight_line (s : stmt) : bool :=
  match s with
  | Seq s1 s2 => straight_line s1 && straight_line s2
  | If _ s1 => straight_line s1
  | While _ _ => false
  | _ => true
  end.

(** The nesting depth of a statement. *)
Fixpoint depth (s : stmt) : nat :=
  match s with
  | Seq s1 s2 => S (Nat.max (depth s1) (depth s2))
  | If _ s1 => S (depth s1)
  | While _ s1 => S (depth s1)
  | _ => 1%nat
  end.

End Cxx.

Declare Scope cxx_scope.
Delimit Scope cxx_scope with cxx.
Notation "c1 ;; c2" := (Cxx.bind c1 (fun _ => c2))
  (at level 61, right associativity) : cxx_scope.

(* ===================================================================== *)
(** * The class template [Dumux::FluidState] *)
(* ===================================================================== *)

Module Dumux.

Import Cxx.
Local Open Scope cxx_scope.

(** ** What the class declares *)

Inductive cxx_type : Type :=
| T_Scalar
| T_int
| T_Implementation_ref
| T_const_Implementation_ref.

Inductive access : Type := Public | Protected.

Record method_decl : Type := Method {
  m_access : access;
  m_return : cxx_type;
  m_name : string;
  m_params : list (cxx_type * string);
  m_const : bool
}.

(** The three unnamed enumerations, lines 57 to 64, one enumerator each. *)
Definition FluidState_enums : list (list string) :=
  [ ["numPhases"]; ["numComponents"]; ["numSolvents"] ].

(** Its non-static data members: there is none. *)
Definition FluidState_fields : list (cxx_type * string) := [].

(** Its member functions other than the constructor, in source order. *)
Definition FluidState_methods : list method_decl :=
  [ Method Public T_Scalar "saturation" [(T_int, "phaseIdx")] true;
    Method Public T_Scalar "moleFrac"
           [(T_int, "phaseIdx"); (T_int, "compIdx")] true;
    Method Public T_Scalar "phaseConcentration" [(T_int, "phaseIdx")] true;
    Method Public T_Scalar "concentration"
           [(T_int, "phaseIdx"); (T_int, "compIdx")] true;
    Method Public T_Scalar "density" [(T_int, "phaseIdx")] true;
    Method Public T_Scalar "averageMolarMass" [(T_int, "phaseIdx")] true;
    Method Public T_Scalar "fugacity" [(T_int, "componentIdx")] true;
    Method Public T_Scalar "phasePressure" [(T_int, "phaseIdx")] true;
    Method Public T_Scalar "temperature" [] true;
    Method Protected T_Implementation_ref "asImp_" [] false;
    Method Protected T_const_Implementation_ref "asImp_" [] true ].

Definition is_public (m : method_decl) : bool :=
  match m_access m with
  | Public => true
  | Protected => false
  end.

Definition FluidState_public_methods : list method_decl :=
  filter is_public FluidState_methods.

Definition find_method (x : string) : option method_decl :=
  find (fun m => String.eqb (m_name m) x) FluidState_methods.

(** The access of a member of the class by name: everything follows
    [public:] at line 42 but the two [asImp_], which follow [protected:]
    at line 142. *)
Definition FluidState_access (x : string) : access_specifier :=
  match find_method x with
  | Some m =>
      match m_access m with
      | Public => acc_public
      | Protected => acc_protected
      end
  | None => acc_public
  end.

(** The class has no base and declares no friend. *)
Definition FluidState_class : class_decl :=
  Root (Scope (flat_map enumerators FluidState_enums)
              (map m_name FluidState_methods)
              FluidState_access
              false).

(** The nine accessors. *)
Inductive accessor : Type :=
| Saturation
| MoleFrac
| PhaseConcentration
| Concentration
| Density
| AverageMolarMass
| Fugacity
| PhasePressure
| Temperature.

Definition all_accessors : list accessor :=
  [ Saturation; MoleFrac; PhaseConcentration; Concentration; Density;
    AverageMolarMass; Fugacity; PhasePressure; Temperature ].

(** The identifier of each accessor in the class. *)
Definition accessor_name (a : accessor) : string :=
  match a with
  | Saturation => "saturation"
  | MoleFrac => "moleFrac"
  | PhaseConcentration => "phaseConcentration"
  | Concentration => "concentration"
  | Density => "density"
  | AverageMolarMass => "averageMolarMass"
  | Fugacity => "fugacity"
  | PhasePressure => "phasePressure"
  | Temperature => "temperature"
  end.

(** A call of an accessor with its arguments, in the order the accessor
    takes them. *)
Inductive call : Type :=
| call_saturation (phaseIdx : int)
| call_moleFrac (phaseIdx compIdx : int)
| call_phaseConcentration (phaseIdx : int)
| call_concentration (phaseIdx compIdx : int)
| call_density (phaseIdx : int)
| call_averageMolarMass (phaseIdx : int)
| call_fugacity (componentIdx : int)
| call_phasePressure (phaseIdx : int)
| call_temperature.

Definition callee (c : call) : accessor :=
  match c with
  | call_saturation _ => Saturation
  | call_moleFrac _ _ => MoleFrac
  | call_phaseConcentration _ => PhaseConcentration
  | call_concentration _ _ => Concentration
  | call_density _ => Density
  | call_averageMolarMass _ => AverageMolarMass
  | call_fugacity _ => Fugacity
  | call_phasePressure _ => PhasePressure
  | call_temperature => Temperature
  end.

Definition arguments (c : call) : list int :=
  match c with
  | call_saturation p => [p]
  | call_moleFrac p k => [p; k]
  | call_phaseConcentration p => [p]
  | call_concentration p k => [p; k]
  | call_density p => [p]
  | call_averageMolarMass p => [p]
  | call_fugacity k => [k]
  | call_phasePressure p => [p]
  | call_temperature => []
  end.

(** The three constants the constructor names on [Implementation]. *)
Definition required_constants : list string :=
  [ "numPhases"; "numComponents"; "numSolvents" ].

Section FluidState.

(** The template parameter [Scalar], and the data of a complete object
    of the implementing class. *)
Variables Scalar Obj : Type.

(** Modelled from the spec: the macro [DUNE_THROW] comes from
    [dumux/common/exceptions.hh], a header outside this one.  Section 7
    of the specification describes the throw as raising a dedicated
    signal that carries the text given at the throw site, so the thrown
    object holds the exception class and that text. *)
Definition DUNE_THROW {A : Type} (E : string) (m : string) : M Obj A :=
  throw (Exception E m).

(** [FluidState()], lines 43 to 53, instantiated for one implementing
    class.  Each of the three qualified names must name a member of the
    implementing class that the constructor may access and that converts
    to [int], for the body to be well formed: [None] stands for the
    compilation error when one does not.  The body is an [if (0)] around
    three assignments to the local [i]; [int i;] has no initialiser and
    does nothing. *)
Definition FluidState_ctor (Implementation : class_decl) : option (M Obj unit) :=
  match contract_reads Implementation "numPhases",
        contract_reads Implementation "numComponents",
        contract_reads Implementation "numSolvents" with
  | Some nP, Some nC, Some nS =>
      Some (if truth 0
            then assign "i" nP ;; assign "i" nC ;; assign "i" nS
            else ret tt)
  | _, _, _ => None
  end.

(** The accessors, lines 69 to 140.  Each is a [const] member function:
    [this] is the reference it is called through. *)
Definition saturation (this : ref) (phaseIdx : int) : M Obj Scalar :=
  DUNE_THROW "Dune::NotImplemented" "FluidState::saturation()".

Definition moleFrac (this : ref) (phaseIdx compIdx : int) : M Obj Scalar :=
  DUNE_THROW "Dune::NotImplemented" "FluidState::moleFrac()".

Definition phaseConcentration (this : ref) (phaseIdx : int) : M Obj Scalar :=
  DUNE_THROW "Dune::NotImplemented" "FluidState::phaseConcentration()".

Definition concentration (this : ref) (phaseIdx compIdx : int) : M Obj Scalar :=
  DUNE_THROW "Dune::NotImplemented" "FluidState::concentration()".

Definition density (this : ref) (phaseIdx : int) : M Obj Scalar :=
  DUNE_THROW "Dune::NotImplemented" "FluidState::density()".

Definition averageMolarMass (this : ref) (phaseIdx : int) : M Obj Scalar :=
  DUNE_THROW "Dune::NotImplemented" "FluidState::averageMolarMass()".

Definition fugacity (this : ref) (componentIdx : int) : M Obj Scalar :=
  DUNE_THROW "Dune::NotImplemented" "FluidState::fugacity()".

Definition phasePressure (this : ref) (phaseIdx : int) : M Obj Scalar :=
  DUNE_THROW "Dune::NotImplemented" "FluidState::totalPressure()".

Definition temperature (this : ref) : M Obj Scalar :=
  DUNE_THROW "Dune::NotImplemented" "FluidState::temperature()".

(** [asImp_], lines 143 to 146: the cast of [this] to the implementing
    class, in its plain and its [const] overload. *)
Definition asImp_ (this : ref) : ref :=
  Ref (target this) AsImplementation Mutable.

Definition asImp_const (this : ref) : ref :=
  Ref (target this) AsImplementation Const.

(** ** Implementing classes *)

(** The type of each accessor as a function. *)
Definition signature (a : accessor) : Type :=
  match a with
  | MoleFrac | Concentration => ref -> int -> int -> M Obj Scalar
  | Temperature => ref -> M Obj Scalar
  | _ => ref -> int -> M Obj Scalar
  end.

Definition FluidState_accessor (a : accessor) : signature a :=
  match a as a' return signature a' with
  | Saturation => saturation
  | MoleFrac => moleFrac
  | PhaseConcentration => phaseConcentration
  | Concentration => concentration
  | Density => density
  | AverageMolarMass => averageMolarMass
  | Fugacity => fugacity
  | PhasePressure => phasePressure
  | Temperature => temperature
  end.

(** A concrete implementation, a class [Impl] derived from
    [FluidState<Scalar, Impl>]: the constants it declares in its own
    scope, the accessors it defines itself, which hide the contract's, the
    other names it declares, the access of its members, how it derives
    from the contract, and whether it declares the contract a friend. *)
Record Implementation : Type := {
  impl_constants : list (string * int);
  impl_accessor : forall a : accessor, option (signature a);
  impl_others : list string;
  impl_access : string -> access_specifier;
  impl_base : access_specifier;
  impl_friend : bool
}.

Definition overrides (I : Implementation) (a : accessor) : bool :=
  match impl_accessor I a with
  | Some _ => true
  | None => false
  end.

Definition Implementation_class (I : Implementation) : class_decl :=
  Derived (Scope (impl_constants I)
                 (impl_others I
                  ++ map accessor_name (filter (overrides I) all_accessors))
                 (impl_access I)
                 (impl_friend I))
          (impl_base I)
          FluidState_class.

(** The function a call of [a] on an object of class [I] is bound to at
    compile time. *)
Definition resolve (I : Implementation) (a : accessor) : signature a :=
  match impl_accessor I a with
  | Some f => f
  | None => FluidState_accessor a
  end.

Definition apply (f : forall a, signature a) (this : ref) (c : call)
  : M Obj Scalar :=
  match c with
  | call_saturation p => f Saturation this p
  | call_moleFrac p k => f MoleFrac this p k
  | call_phaseConcentration p => f PhaseConcentration this p
  | call_concentration p k => f Concentration this p k
  | call_density p => f Density this p
  | call_averageMolarMass p => f AverageMolarMass this p
  | call_fugacity k => f Fugacity this k
  | call_phasePressure p => f PhasePressure this p
  | call_temperature => f Temperature this
  end.

(** A call on the contract's own bodies, and a call on an object of an
    implementing class. *)
Definition FluidState_call : ref -> call -> M Obj Scalar :=
  apply FluidState_accessor.

Definition invoke (I : Implementation) : ref -> call -> M Obj Scalar :=
  apply (resolve I).

(** The implementation [struct Impl : FluidState<Scalar, Impl>] that
    declares the constants [cs] and nothing else: its members and its base
    are public. *)
Definition stub (cs : list (string * int)) : Implementation :=
  {| impl_constants := cs;
     impl_accessor := fun _ => None;
     impl_others := [];
     impl_access := fun _ => acc_public;
     impl_base := acc_public;
     impl_friend := false |}.

End FluidState.

Arguments DUNE_THROW {Obj A} E m.
Arguments FluidState_ctor {Obj} Implementation.
Arguments saturation {Scalar Obj} this phaseIdx.
Arguments moleFrac {Scalar Obj} this phaseIdx compIdx.
Arguments phaseConcentration {Scalar Obj} this phaseIdx.
Arguments concentration {Scalar Obj} this phaseIdx compIdx.
Arguments density {Scalar Obj} this phaseIdx.
Arguments averageMolarMass {Scalar Obj} this phaseIdx.
Arguments fugacity {Scalar Obj} this componentIdx.
Arguments phasePressure {Scalar Obj} this phaseIdx.
Arguments temperature {Scalar Obj} this.
Arguments FluidState_accessor {Scalar Obj} a.
Arguments impl_constants {Scalar Obj} i.
Arguments impl_accessor {Scalar Obj} i a.
Arguments impl_others {Scalar Obj} i.
Arguments impl_access {Scalar Obj} i _.
Arguments impl_base {Scalar Obj} i.
Arguments impl_friend {Scalar Obj} i.
Arguments Implementation_class {Scalar Obj} I.
Arguments overrides {Scalar Obj} I a.
Arguments resolve {Scalar Obj} I a.
Arguments apply {Scalar Obj} f this c.
Arguments FluidState_call {Scalar Obj} this c.
Arguments invoke {Scalar Obj} I this c.
Arguments stub {Scalar Obj} cs.

(** ** Reading an outcome *)

Definition thrown {Obj A : Type} (r : outcome A * world Obj)
  : option exception :=
  match fst r with
  | Thrown e => Some e
  | Returned _ => None
  end.

Definition thrown_class {Obj A : Type} (r : outcome A * world Obj)
  : option string :=
  option_map exc_class (thrown r).

(** The exception carries the name of accessor [a]: the identifier occurs
    in its message. *)
Definition carries_name (e : exception) (a : accessor) : bool :=
  contains (exc_message e) (accessor_name a).

(** A call of each accessor, to run its body on. *)
Definition sample_call (a : accessor) : call :=
  match a with
  | Saturation => call_saturation 0
  | MoleFrac => call_moleFrac 0 0
  | PhaseConcentration => call_phaseConcentration 0
  | Concentration => call_concentration 0 0
  | Density => call_density 0
  | AverageMolarMass => call_averageMolarMass 0
  | Fugacity => call_fugacity 0
  | PhasePressure => call_phasePressure 0
  | Temperature => call_temperature
  end.

(** The message the contract's body of [a] throws with, read off a run of
    that body. *)
Definition thrown_text (a : accessor) : string :=
  match thrown (@FluidState_call unit unit (Ref 0%nat AsFluidState Const)
                                 (sample_call a) (World (fun _ => None) []))
  with
  | Some e => exc_message e
  | None => ""
  end.

(** ** The accessor table of the specification *)

Inductive index : Type := phase_index | component_index.

(** Section 4.1 of the specification, columns Operation and Inputs, row by
    row; every row returns the scalar numeric type. *)
Definition spec_accessor_table : list (string * list index) :=
  [ ("saturation", [phase_index]);
    ("moleFrac", [phase_index; component_index]);
    ("phaseConcentration", [phase_index]);
    ("concentration", [phase_index; component_index]);
    ("density", [phase_index]);
    ("averageMolarMass", [phase_index]);
    ("fugacity", [component_index]);
    ("phasePressure", [phase_index]);
    ("temperature", []) ].

(** What a parameter of the class indexes, by its name in the header:
    [phaseIdx] a phase, [compIdx] and [componentIdx] a component. *)
Definition index_of_parameter (x : string) : option index :=
  if String.eqb x "phaseIdx" then Some phase_index
  else if String.eqb x "compIdx" || String.eqb x "componentIdx"
       then Some component_index
       else None.

(** The row a declared member function gives. *)
Definition row_of (m : method_decl) : string * list (option index) :=
  (m_name m, map (fun p => index_of_parameter (snd p)) (m_params m)).

Definition returns_Scalar (m : method_decl) : bool :=
  match m_return m with
  | T_Scalar => true
  | _ => false
  end.

Definition takes_ints (m : method_decl) : bool :=
  forallb (fun p => match fst p with T_int => true | _ => false end)
          (m_params m).

(** ** Sample data *)

Definition two_phase_constants : list (string * int) :=
  [ ("numPhases", 2); ("numComponents", 2); ("numSolvents", 1) ].

Definition busy_world : world unit :=
  World (fun l => if Nat.eqb l 4%nat then Some tt else None) [("k", 7)].

Definition some_object : ref := Ref 4%nat AsFluidState Const.

(** ** Overloads *)

(** The two functions named [asImp_] are overloads on the qualifier of
    [this]: a call on a receiver that is not [const] takes the plain one,
    a call on a [const] receiver the [const] one. *)
Definition asImp (this : ref) : ref :=
  match qualifier this with
  | Mutable => asImp_ this
  | Const => asImp_const this
  end.

(** An implementation that defines [density], [moleFrac] and
    [averageMolarMass] and leaves the other six accessors alone. *)
Definition mass_only : Implementation Z unit :=
  {| impl_constants := two_phase_constants;
     impl_accessor := fun a =>
       match a as a' return option (signature Z unit a') with
       | Density => Some (fun _ _ => ret 1000)
       | MoleFrac => Some (fun _ _ _ => ret 1)
       | AverageMolarMass => Some (fun _ _ => ret 18)
       | _ => None
       end;
     impl_others := [];
     impl_access := fun _ => acc_public;
     impl_base := acc_public;
     impl_friend := false |}.

(** ** The bodies as statements *)

(** The body of [FluidState()], lines 44 to 53, for one implementing
    class; [None] when it is ill formed, as for [FluidState_ctor]. *)
Definition FluidState_ctor_stmt (Implementation : class_decl) : option stmt :=
  match contract_reads Implementation "numPhases",
        contract_reads Implementation "numComponents",
        contract_reads Implementation "numSolvents" with
  | Some nP, Some nC, Some nS =>
      Some (If 0 (Seq (DeclInt "i")
                 (Seq (Assign "i" nP)
                 (Seq (Assign "i" nC)
                      (Assign "i" nS)))))
  | _, _, _ => None
  end.

(** The body of each accessor, lines 70 to 140; [DUNE_THROW(E, m)] is the
    statement [Throw E m], as for the function [DUNE_THROW]. *)
Definition accessor_stmt (a : accessor) : stmt :=
  match a with
  | Saturation =>
      Throw "Dune::NotImplemented" "FluidState::saturation()"
  | MoleFrac =>
      Throw "Dune::NotImplemented" "FluidState::moleFrac()"
  | PhaseConcentration =>
      Throw "Dune::NotImplemented" "FluidState::phaseConcentration()"
  | Concentration =>
      Throw "Dune::NotImplemented" "FluidState::concentration()"
  | Density =>
      Throw "Dune::NotImplemented" "FluidState::density()"
  | AverageMolarMass =>
      Throw "Dune::NotImplemented" "FluidState::averageMolarMass()"
  | Fugacity =>
      Throw "Dune::NotImplemented" "FluidState::fugacity()"
  | PhasePressure =>
      Throw "Dune::NotImplemented" "FluidState::totalPressure()"
  | Temperature =>
      Throw "Dune::NotImplemented" "FluidState::temperature()"
  end.

(** The bodies of the two [asImp_], lines 144 and 146. *)
Definition asImp__stmt : stmt := ReturnThis AsImplementation Mutable.

Definition asImp_const_stmt : stmt := ReturnThis AsImplementation Const.

(** The operations of the class: constructing it for an implementing
    class, calling an accessor, and the two casts. *)
Inductive operation : Type :=
| op_ctor (Implementation : class_decl)
| op_accessor (c : call)
| op_asImp_
| op_asImp_const.

Definition body_of (op : operation) : option stmt :=
  match op with
  | op_ctor C => FluidState_ctor_stmt C
  | op_accessor c => Some (accessor_stmt (callee c))
  | op_asImp_ => Some asImp__stmt
  | op_asImp_const => Some asImp_const_stmt
  end.

(** How each operation ends on receiver [this] in state [w], by the
    functions above. *)
Definition ends_with {Obj : Type} (op : operation) (this : ref)
           (w : world Obj) : completion * world Obj :=
  match op with
  | op_ctor _ => (Normal, w)
  | op_accessor c =>
      match thrown (@FluidState_call unit Obj this c w) with
      | Some e => (Throws e, w)
      | None => (Normal, w)
      end
  | op_asImp_ => (Returns (asImp_ this), w)
  | op_asImp_const => (Returns (asImp_const this), w)
  end.

(** ** More sample data *)

(** [class Impl : public FluidState<Scalar, Impl> { enum { numPhases = 2,
    numComponents = 2, numSolvents = 1 }; }]: the members of a [class]
    are private unless it says otherwise. *)
Definition private_constants : Implementation Z unit :=
  {| impl_constants := two_phase_constants;
     impl_accessor := fun _ => None;
     impl_others := [];
     impl_access := fun _ => acc_private;
     impl_base := acc_public;
     impl_friend := false |}.

(** [class Impl : FluidState<Scalar, Impl> { }]: the base of a [class] is
    private unless it says otherwise. *)
Definition private_base : Implementation Z unit :=
  {| impl_constants := [];
     impl_accessor := fun _ => None;
     impl_others := [];
     impl_access := fun _ => acc_public;
     impl_base := acc_private;
     impl_friend := false |}.

(** As [private_constants], with [friend class FluidState<Scalar, Impl>;]
    added. *)
Definition private_constants_friend : Implementation Z unit :=
  {| impl_constants := two_phase_constants;
     impl_accessor := fun _ => None;
     impl_others := [];
     impl_access := fun _ => acc_private;
     impl_base := acc_private;
     impl_friend := true |}.

(** [struct Impl : FluidState<Scalar, Impl> { void numPhases(); }]. *)
Definition function_named_numPhases : Implementation Z unit :=
  {| impl_constants := [];
     impl_accessor := fun _ => None;
     impl_others := ["numPhases"];
     impl_access := fun _ => acc_public;
     impl_base := acc_public;
     impl_friend := false |}.

End Dumux.

(* ===================================================================== *)
(** * Properties *)
(* ===================================================================== *)

Import Cxx.
Import Dumux.
Local Open Scope cxx_scope.

(** ** The computation type *)

Section MonadLaws.

Context {Obj A B C : Type}.

Lemma bind_ret_l (a : A) (k : A -> M Obj B) (w : world Obj) :
  bind (ret a) k w = k a w.
Proof. reflexivity. Qed.

Lemma bind_ret_r (c : M Obj A) (w : world Obj) :
  bind c ret w = c w.
Proof.
  unfold bind, ret. destruct (c w) as [[a | e] w']; reflexivity.
Qed.

Lemma bind_assoc (c : M Obj A) (k : A -> M Obj B) (h : B -> M Obj C)
      (w : world Obj) :
  bind (bind c k) h w = bind c (fun a => bind (k a) h) w.
Proof.
  unfold bind. destruct (c w) as [[a | e] w']; reflexivity.
Qed.

(** A throw cuts the rest of the computation short and keeps the state. *)
Lemma bind_throw (e : exception) (k : A -> M Obj B) (w : world Obj) :
  bind (throw e) k w = (Thrown e, w).
Proof. reflexivity. Qed.

End MonadLaws.

(** An executed assignment shows in the state. *)
Lemma assign_recorded {Obj : Type} (x : string) (v : int) (w : world Obj) :
  assigned (snd (assign x v w)) = (assigned w ++ [(x, v)])%list.
Proof. reflexivity. Qed.

Lemma assign_changes_world {Obj : Type} (x : string) (v : int)
      (w : world Obj) :
  snd (assign x v w) <> w.
Proof.
  intros H. apply (f_equal assigned) in H. rewrite assign_recorded in H.
  apply (f_equal (@List.length _)) in H. rewrite length_app in H.
  simpl in H. lia.
Qed.

(** ** Name lookup *)

Lemma enumerators_single (x : string) : enumerators [x] = [(x, 0)].
Proof. reflexivity. Qed.

Lemma FluidState_members :
  members_of FluidState_class =
  [ ("numPhases", 0); ("numComponents", 0); ("numSolvents", 0) ].
Proof. reflexivity. Qed.

Lemma required_in_FluidState (x : string) :
  In x required_constants -> qualified_lookup FluidState_class x = Some 0.
Proof.
  unfold required_constants. simpl.
  intros [<- | [<- | [<- | []]]]; reflexivity.
Qed.

Lemma lookup_derived_own (s : scope) (how : access_specifier)
      (B : class_decl) (x : string) (v : int) :
  assoc x (constants s) = Some v ->
  qualified_lookup (Derived s how B) x = Some v.
Proof.
  intros H. simpl. unfold declared_in. rewrite H. reflexivity.
Qed.

Lemma lookup_derived_base (s : scope) (how : access_specifier)
      (B : class_decl) (x : string) :
  declared_in s x = false ->
  qualified_lookup (Derived s how B) x = qualified_lookup B x.
Proof. intros H. simpl. rewrite H. reflexivity. Qed.

Lemma declares_false (C : class_decl) (x : string) :
  declares C x = false -> assoc x (members_of C) = None.
Proof.
  unfold declares, declared_in, members_of.
  destruct (assoc x (constants (scope_of C))); [discriminate | reflexivity].
Qed.

(** ** Access *)

Lemma required_public_in_FluidState (x : string) :
  In x required_constants ->
  access_in FluidState_class x = Some acc_public.
Proof.
  unfold required_constants. simpl.
  intros [<- | [<- | [<- | []]]]; reflexivity.
Qed.

(** The contract may name its own enumerators. *)
Lemma contract_reads_own (x : string) :
  In x required_constants -> contract_reads FluidState_class x = Some 0.
Proof.
  unfold required_constants. simpl.
  intros [<- | [<- | [<- | []]]]; reflexivity.
Qed.

(** A name the class declares itself can be used by the contract when it
    is a public constant of the class. *)
Lemma contract_reads_public_own (s : scope) (how : access_specifier)
      (B : class_decl) (x : string) (v : int) :
  assoc x (constants s) = Some v ->
  access_of s x = acc_public ->
  contract_reads (Derived s how B) x = Some v.
Proof.
  intros Hv Ha. unfold contract_reads, accessible_from_contract.
  rewrite (lookup_derived_own s how B x v Hv).
  simpl. unfold declared_in. rewrite Hv, Ha.
  destruct (contract_access B x). reflexivity.
Qed.

(** A private or protected member of the class cannot, unless the class
    befriends the contract. *)
Lemma contract_reads_hidden_own (s : scope) (how : access_specifier)
      (B : class_decl) (x : string) :
  declared_in s x = true ->
  access_of s x <> acc_public ->
  befriends_contract s = false ->
  contract_reads (Derived s how B) x = None.
Proof.
  intros Hd Ha Hf. unfold contract_reads, accessible_from_contract.
  simpl. rewrite Hd, Hf.
  destruct (contract_access B x) as [in_base in_bases].
  destruct (access_of s x); [congruence | reflexivity | reflexivity].
Qed.

(** A name left to the contract is the contract's enumerator, of value 0,
    when the class derives publicly from the contract or befriends it. *)
Lemma contract_reads_inherited (s : scope) (how : access_specifier)
      (x : string) :
  In x required_constants ->
  declared_in s x = false ->
  how = acc_public \/ befriends_contract s = true ->
  contract_reads (Derived s how FluidState_class) x = Some 0.
Proof.
  intros Hx Hd Hb. unfold contract_reads, accessible_from_contract.
  rewrite (lookup_derived_base s how _ x Hd).
  pose proof (contract_reads_own x Hx) as Hown.
  unfold contract_reads, accessible_from_contract in Hown.
  cbn [contract_access access_in]. rewrite Hd.
  rewrite (required_public_in_FluidState x Hx).
  destruct (contract_access FluidState_class x) as [in_base in_bases] eqn:E.
  assert (Hin : in_base = true).
  { simpl in Hown. destruct in_base; [reflexivity | discriminate]. }
  assert (Hins : in_bases = true).
  { revert E Hin. unfold required_constants in Hx. simpl in Hx.
    destruct Hx as [<- | [<- | [<- | []]]]; vm_compute;
      intros E1 E2; injection E1 as <- <-; reflexivity. }
  subst. simpl in Hown. cbn [fst].
  destruct Hb as [-> | Hf].
  - simpl. destruct (befriends_contract s); simpl; exact Hown.
  - rewrite Hf. destruct how; simpl; exact Hown.
Qed.

(** It cannot be used when the class neither derives publicly from the
    contract nor befriends it. *)
Lemma contract_reads_nonpublic_base (s : scope) (how : access_specifier)
      (x : string) :
  In x required_constants ->
  declared_in s x = false ->
  how <> acc_public ->
  befriends_contract s = false ->
  contract_reads (Derived s how FluidState_class) x = None.
Proof.
  intros Hx Hd Hh Hf. unfold contract_reads, accessible_from_contract.
  cbn [contract_access access_in]. rewrite Hd, Hf.
  rewrite (required_public_in_FluidState x Hx).
  destruct (contract_access FluidState_class x) as [in_base in_bases].
  destruct how; [congruence | reflexivity | reflexivity].
Qed.

Lemma stub_declares {Scalar Obj : Type} (cs : list (string * int))
      (x : string) :
  declares (@Implementation_class Scalar Obj (stub cs)) x
  = match assoc x cs with Some _ => true | None => false end.
Proof.
  unfold declares, declared_in. simpl. destruct (assoc x cs); reflexivity.
Qed.

(** For the plain [struct] with public base, every required name can be
    used, whatever the [struct] declares itself. *)
Lemma stub_reads_required {Scalar Obj : Type} (cs : list (string * int))
      (x : string) :
  In x required_constants ->
  exists v, contract_reads (@Implementation_class Scalar Obj (stub cs)) x
            = Some v.
Proof.
  intros Hx. destruct (assoc x cs) as [v |] eqn:E.
  - exists v. unfold Implementation_class.
    apply contract_reads_public_own; [exact E | reflexivity].
  - exists 0. unfold Implementation_class.
    apply contract_reads_inherited; [exact Hx | | left; reflexivity].
    pose proof (stub_declares (Scalar := Scalar) (Obj := Obj) cs x) as H.
    rewrite E in H. exact H.
Qed.

(** So the constructor is well formed for it. *)
Lemma ctor_accepts_stub {Scalar Obj : Type} (cs : list (string * int)) :
  exists body : M Obj unit,
    FluidState_ctor (@Implementation_class Scalar Obj (stub cs)) = Some body.
Proof.
  unfold FluidState_ctor.
  destruct (@stub_reads_required Scalar Obj cs "numPhases") as [nP ->];
    [simpl; tauto |].
  destruct (@stub_reads_required Scalar Obj cs "numComponents") as [nC ->];
    [simpl; tauto |].
  destruct (@stub_reads_required Scalar Obj cs "numSolvents") as [nS ->];
    [simpl; tauto |].
  eexists. reflexivity.
Qed.

(** A class that does not derive from the contract and lacks one of the
    three names is rejected. *)
Lemma ctor_rejects_root {Obj : Type} (s : scope) (x : string) :
  In x required_constants ->
  assoc x (constants s) = None ->
  @FluidState_ctor Obj (Root s) = None.
Proof.
  intros Hx Hn.
  assert (H : contract_reads (Root s) x = None).
  { unfold contract_reads. simpl. rewrite Hn.
    destruct (accessible_from_contract (Root s) x); reflexivity. }
  unfold required_constants in Hx. simpl in Hx.
  unfold FluidState_ctor.
  destruct Hx as [<- | [<- | [<- | []]]]; rewrite H.
  - reflexivity.
  - destruct (contract_reads (Root s) "numPhases"); reflexivity.
  - destruct (contract_reads (Root s) "numPhases"); [| reflexivity].
    destruct (contract_reads (Root s) "numComponents"); reflexivity.
Qed.

(** Classes the constructor rejects although every name resolves, and one
    it accepts through friendship. *)
Lemma ctor_rejects_private_constants :
  map (qualified_lookup (Implementation_class private_constants))
      required_constants = [Some 2; Some 2; Some 1] /\
  @FluidState_ctor unit (Implementation_class private_constants) = None.
Proof. split; reflexivity. Qed.

Lemma ctor_rejects_private_base :
  map (qualified_lookup (Implementation_class private_base))
      required_constants = [Some 0; Some 0; Some 0] /\
  @FluidState_ctor unit (Implementation_class private_base) = None.
Proof. split; reflexivity. Qed.

Lemma ctor_rejects_function_named_numPhases :
  @FluidState_ctor unit (Implementation_class function_named_numPhases)
  = None.
Proof. reflexivity. Qed.

Lemma ctor_accepts_private_constants_of_friend :
  map (contract_reads (Implementation_class private_constants_friend))
      required_constants = [Some 2; Some 2; Some 1].
Proof. reflexivity. Qed.

(** ** Binding of calls *)

Lemma resolve_default {Scalar Obj : Type} (I : Implementation Scalar Obj)
      (a : accessor) :
  overrides I a = false -> resolve I a = FluidState_accessor a.
Proof.
  unfold overrides, resolve.
  destruct (impl_accessor I a); [discriminate | reflexivity].
Qed.

Lemma invoke_default {Scalar Obj : Type} (I : Implementation Scalar Obj)
      (this : ref) (c : call) :
  overrides I (callee c) = false ->
  invoke I this c = FluidState_call this c.
Proof.
  intros H. apply resolve_default in H.
  unfold invoke, FluidState_call.
  destruct c; simpl in *; rewrite H; reflexivity.
Qed.

(** What each body of the contract does, in one equation. *)
Lemma FluidState_call_throws {Scalar Obj : Type} (this : ref) (c : call)
      (w : world Obj) :
  @FluidState_call Scalar Obj this c w =
  (Thrown (Exception "Dune::NotImplemented" (thrown_text (callee c))), w).
Proof. destruct c; reflexivity. Qed.

(** The contract never reads the constants of an implementation at run
    time: the guard of the constructor's block is false. *)
Lemma ctor_guard_false : truth 0 = false.
Proof. reflexivity. Qed.

Lemma ctor_body {Obj : Type} (C : class_decl) (body : M Obj unit) :
  FluidState_ctor C = Some body -> body = ret tt.
Proof.
  unfold FluidState_ctor.
  destruct (contract_reads C "numPhases"); [| discriminate].
  destruct (contract_reads C "numComponents"); [| discriminate].
  destruct (contract_reads C "numSolvents"); [| discriminate].
  intros H. injection H as <-. reflexivity.
Qed.

(** ** The contract *)

(** C1.  On an implementation that defines none of the nine accessors
    itself, every accessor call, with any arguments and in any state,
    throws [Dune::NotImplemented] and returns no value. *)
Theorem default_accessors_raise_not_implemented
        {Scalar Obj : Type} (I : Implementation Scalar Obj) :
  (forall a, overrides I a = false) ->
  forall (this : ref) (c : call) (w : world Obj),
    (exists m, invoke I this c w
               = (Thrown (Exception "Dune::NotImplemented" m), w)) /\
    (forall (v : Scalar) (w' : world Obj),
        invoke I this c w <> (Returned v, w')).
Proof.
  intros none this c w.
  rewrite (invoke_default I this c (none (callee c))).
  rewrite FluidState_call_throws. split.
  - eexists. reflexivity.
  - intros v w' H. discriminate H.
Qed.

Lemma default_accessors_raise_not_implemented_witness :
  (exists m, @invoke Z unit (stub two_phase_constants) some_object
                     (call_moleFrac 1 5) busy_world
             = (Thrown (Exception "Dune::NotImplemented" m), busy_world)) /\
  (forall (v : Z) (w' : world unit),
      @invoke Z unit (stub two_phase_constants) some_object
              (call_moleFrac 1 5) busy_world <> (Returned v, w')).
Proof.
  apply (@default_accessors_raise_not_implemented Z unit
           (stub two_phase_constants)).
  intros a. reflexivity.
Defined.

(** C2, at the input where the code departs from it.  A class that derives
    from the contract and declares none of the three constants is accepted
    by the constructor: each name resolves to the contract's own
    enumerator, of value 0. *)
Theorem ctor_accepts_stub_without_constants :
  forallb (fun x => negb (declares (@Implementation_class Z unit (stub [])) x))
          required_constants = true /\
  map (qualified_lookup (@Implementation_class Z unit (stub [])))
      required_constants = [Some 0; Some 0; Some 0] /\
  @FluidState_ctor unit (@Implementation_class Z unit (stub [])) <> None.
Proof.
  split; [reflexivity |]. split; [reflexivity |].
  destruct (@ctor_accepts_stub Z unit []) as [body E].
  rewrite E. discriminate.
Qed.

(** C3, at the input where the code departs from it.  The exception thrown
    by [phasePressure] has the message [FluidState::totalPressure()], in
    which the name [phasePressure] does not occur; the other eight
    accessors throw with a message that holds their own name. *)
Theorem phasePressure_signal_names_totalPressure :
  (forall (this : ref) (p : int) (w : world unit),
      @invoke Z unit (stub two_phase_constants) this (call_phasePressure p) w
      = (Thrown (Exception "Dune::NotImplemented"
                           "FluidState::totalPressure()"), w)) /\
  carries_name (Exception "Dune::NotImplemented" "FluidState::totalPressure()")
               PhasePressure = false /\
  map (fun a => contains (thrown_text a) (accessor_name a)) all_accessors
  = [true; true; true; true; true; true; true; false; true].
Proof.
  split; [| split]; reflexivity.
Qed.

(** C4.  Wherever the constructor is well formed, running it changes
    nothing and cannot throw: the guard of its block is false, so the
    state after it is the state before it, with no assignment added, and
    it returns normally. *)
Theorem ctor_no_runtime_effect
        {Obj : Type} (C : class_decl) (body : M Obj unit) :
  FluidState_ctor C = Some body ->
  forall w : world Obj,
    truth 0 = false /\
    body w = (Returned tt, w) /\
    assigned (snd (body w)) = assigned w /\
    thrown (body w) = None.
Proof.
  intros H w. apply ctor_body in H. subst body.
  split; [exact ctor_guard_false |].
  split; [| split]; reflexivity.
Qed.

Lemma ctor_no_runtime_effect_witness :
  truth 0 = false /\
  (if truth 0
   then assign "i" 2 ;; assign "i" 2 ;; assign "i" 1
   else ret tt) busy_world = (Returned tt, busy_world) /\
  assigned (snd ((if truth 0
                  then assign "i" 2 ;; assign "i" 2 ;; assign "i" 1
                  else ret tt) busy_world)) = assigned busy_world /\
  thrown ((if truth 0
           then assign "i" 2 ;; assign "i" 2 ;; assign "i" 1
           else ret tt) busy_world) = None.
Proof.
  apply (@ctor_no_runtime_effect unit
           (@Implementation_class Z unit (stub two_phase_constants))).
  reflexivity.
Defined.

(** C5.  A call on the contract's own bodies does not look at its indices:
    two calls of the same accessor end the same way whatever the indices,
    in range or not, and what is thrown is [Dune::NotImplemented], never
    [Dune::RangeError]. *)
Theorem default_accessors_ignore_indices
        {Scalar Obj : Type} (this : ref) (c c' : call) (w : world Obj) :
  callee c = callee c' ->
  @FluidState_call Scalar Obj this c w = FluidState_call this c' w /\
  thrown_class (@FluidState_call Scalar Obj this c w)
  = Some "Dune::NotImplemented" /\
  thrown_class (@FluidState_call Scalar Obj this c w)
  <> Some "Dune::RangeError".
Proof.
  intros same. rewrite !FluidState_call_throws, same.
  split; [reflexivity |]. split; [reflexivity |].
  unfold thrown_class, thrown. simpl. intros H. discriminate H.
Qed.

Lemma default_accessors_ignore_indices_witness :
  @FluidState_call Z unit some_object (call_concentration 0 1) busy_world
  = FluidState_call some_object (call_concentration (-3) 2147483647) busy_world /\
  thrown_class (@FluidState_call Z unit some_object (call_concentration 0 1)
                                 busy_world)
  = Some "Dune::NotImplemented" /\
  thrown_class (@FluidState_call Z unit some_object (call_concentration 0 1)
                                 busy_world)
  <> Some "Dune::RangeError".
Proof.
  apply (@default_accessors_ignore_indices Z unit some_object
           (call_concentration 0 1) (call_concentration (-3) 2147483647)).
  reflexivity.
Defined.

(** C6.  The class declares no data member, its nine accessors are all
    [const], and a call of any of them on the contract's bodies leaves the
    whole state as it was: every object reads the same afterwards. *)
Theorem contract_stateless_read_only :
  FluidState_fields = [] /\
  forallb m_const FluidState_public_methods = true /\
  forall (Scalar Obj : Type) (this : ref) (c : call) (w : world Obj),
    snd (@FluidState_call Scalar Obj this c w) = w /\
    forall r : ref,
      load r (snd (@FluidState_call Scalar Obj this c w)) = load r w.
Proof.
  split; [reflexivity |]. split; [reflexivity |].
  intros Scalar Obj this c w. rewrite FluidState_call_throws.
  split; [reflexivity | intros r; reflexivity].
Qed.

(** C7.  Both overloads of [asImp_] give a reference to the object they
    were called on, seen as the implementing class; the plain one is
    mutable, the other [const].  The result aliases the receiver: reading
    through either gives the receiver's object, and a write through the
    mutable one is read back through the receiver. *)
Theorem asImp_aliases_receiver (this : ref) :
  target (asImp_ this) = target this /\
  seen_as (asImp_ this) = AsImplementation /\
  qualifier (asImp_ this) = Mutable /\
  target (asImp_const this) = target this /\
  seen_as (asImp_const this) = AsImplementation /\
  qualifier (asImp_const this) = Const /\
  forall (Obj : Type) (w : world Obj),
    load (asImp_ this) w = load this w /\
    load (asImp_const this) w = load this w /\
    forall v : Obj,
      exists w', store (asImp_ this) v w = Some w' /\
                 load this w' = Some v.
Proof.
  do 6 (split; [reflexivity |]).
  intros Obj w. do 2 (split; [reflexivity |]).
  intros v. eexists. split; [reflexivity |].
  unfold load. simpl. rewrite Nat.eqb_refl. reflexivity.
Qed.

(** C8.  The public member functions of the class, read as rows, are the
    accessor table of the specification: same names in the same order,
    the phase index before the component index in [moleFrac] and
    [concentration], one phase index for [saturation],
    [phaseConcentration], [density], [averageMolarMass] and
    [phasePressure], one component index for [fugacity], none for
    [temperature].  Every one returns [Scalar] and takes [int]s only. *)
Theorem accessor_signatures_match_table :
  map row_of FluidState_public_methods
  = map (fun r => (fst r, map Some (snd r))) spec_accessor_table /\
  forallb returns_Scalar FluidState_public_methods = true /\
  forallb takes_ints FluidState_public_methods = true /\
  map m_name FluidState_public_methods = map accessor_name all_accessors /\
  forall c : call,
    exists m, find_method (accessor_name (callee c)) = Some m /\
              List.length (m_params m) = List.length (arguments c).
Proof.
  do 4 (split; [reflexivity |]).
  intros c. destruct c; eexists; (split; [reflexivity | reflexivity]).
Qed.

(** C9.  The contract declares [numPhases], [numComponents] and
    [numSolvents] itself, each the only enumerator of its enumeration and
    so of value 0; a class derived from the contract that does not declare
    one of them still has it as a member, with that value. *)
Theorem contract_enumerators_inherited
        {Scalar Obj : Type} (I : Implementation Scalar Obj) (x : string) :
  In x required_constants ->
  declares (Implementation_class I) x = false ->
  members_of FluidState_class
  = [ ("numPhases", 0); ("numComponents", 0); ("numSolvents", 0) ] /\
  qualified_lookup (Implementation_class I) x = Some 0.
Proof.
  intros Hx Hd. split; [exact FluidState_members |].
  unfold Implementation_class in *. unfold declares in Hd. simpl in Hd.
  rewrite (lookup_derived_base _ _ _ _ Hd).
  apply required_in_FluidState. exact Hx.
Qed.

Lemma contract_enumerators_inherited_witness :
  members_of FluidState_class
  = [ ("numPhases", 0); ("numComponents", 0); ("numSolvents", 0) ] /\
  qualified_lookup (@Implementation_class Z unit (stub [("numPhases", 3)]))
                   "numSolvents" = Some 0.
Proof.
  apply (@contract_enumerators_inherited Z unit (stub [("numPhases", 3)])
           "numSolvents").
  - simpl. tauto.
  - reflexivity.
Defined.

(** ** Running the bodies *)

(** More fuel does not change how a statement that ended ends. *)
Lemma exec_more_fuel {Obj : Type} (n : nat) :
  forall (this : ref) (s : stmt) (w : world Obj) r,
    exec n this s w = Some r -> exec (S n) this s w = Some r.
Proof.
  induction n as [| n IH]; intros this s w r H; [discriminate H |].
  destruct s; try exact H.
  - (* Seq *)
    cbn [exec] in H. change (exec (S (S n)) this (Seq s1 s2) w)
      with (match exec (S n) this s1 w with
            | Some (Normal, w') => exec (S n) this s2 w'
            | r' => r'
            end).
    destruct (exec n this s1 w) as [[c w'] |] eqn:E1; [| discriminate H].
    rewrite (IH _ _ _ _ E1).
    destruct c; [apply IH; exact H | exact H | exact H].
  - (* If *)
    cbn [exec] in H. change (exec (S (S n)) this (If c s) w)
      with (if truth c then exec (S n) this s w else Some (Normal, w)).
    destruct (truth c); [apply IH; exact H | exact H].
  - (* While *)
    cbn [exec] in H. change (exec (S (S n)) this (While c s) w)
      with (if truth c
            then match exec (S n) this s w with
                 | Some (Normal, w') => exec (S n) this (While c s) w'
                 | r' => r'
                 end
            else Some (Normal, w)).
    destruct (truth c); [| exact H].
    destruct (exec n this s w) as [[k w'] |] eqn:E1; [| discriminate H].
    rewrite (IH _ _ _ _ E1).
    destruct k; [apply IH; exact H | exact H | exact H].
Qed.

Lemma exec_fuel_le {Obj : Type} (n m : nat) (this : ref) (s : stmt)
      (w : world Obj) r :
  (n <= m)%nat -> exec n this s w = Some r -> exec m this s w = Some r.
Proof.
  intros Hle H. induction Hle as [| m Hle IH]; [exact H |].
  apply exec_more_fuel. exact IH.
Qed.

(** A statement without a loop ends within its depth. *)
Lemma straight_line_ends {Obj : Type} (this : ref) (s : stmt) :
  straight_line s = true ->
  forall w : world Obj, exists r, exec (depth s) this s w = Some r.
Proof.
  induction s as [| x | x v | s1 IH1 s2 IH2 | c s IH | c s IH | E m | t q];
    intros Hs w; try (eexists; reflexivity); simpl in Hs.
  - apply andb_prop in Hs. destruct Hs as [H1 H2].
    destruct (IH1 H1 w) as [[k1 w1] E1].
    cbn [depth exec].
    rewrite (exec_fuel_le _ (Nat.max (depth s1) (depth s2)) _ _ _ _
               (Nat.le_max_l _ _) E1).
    destruct k1; try (eexists; reflexivity).
    destruct (IH2 H2 w1) as [r2 E2].
    exists r2.
    exact (exec_fuel_le _ _ _ _ _ _ (Nat.le_max_r _ _) E2).
  - cbn [depth exec]. destruct (truth c); [| eexists; reflexivity].
    apply IH. exact Hs.
  - discriminate Hs.
Qed.

(** A loop whose condition holds and whose body falls through never
    ends: the bound is always reached. *)
Lemma loop_never_ends {Obj : Type} (n : nat) (this : ref) (w : world Obj) :
  exec n this (While 1 Skip) w = None.
Proof.
  revert w. induction n as [| n IH]; intros w; [reflexivity |].
  cbn [exec]. change (truth 1) with true. cbv iota.
  destruct n as [| n]; [reflexivity |].
  change (exec (S n) this Skip w) with (Some (Normal, w)).
  cbv iota beta. apply IH.
Qed.

Lemma ctor_stmt_shape (C : class_decl) (s : stmt) :
  FluidState_ctor_stmt C = Some s ->
  exists nP nC nS,
    s = If 0 (Seq (DeclInt "i")
             (Seq (Assign "i" nP) (Seq (Assign "i" nC) (Assign "i" nS)))).
Proof.
  unfold FluidState_ctor_stmt.
  destruct (contract_reads C "numPhases") as [nP |]; [| discriminate].
  destruct (contract_reads C "numComponents") as [nC |]; [| discriminate].
  destruct (contract_reads C "numSolvents") as [nS |]; [| discriminate].
  intros H. injection H as <-. exists nP, nC, nS. reflexivity.
Qed.

(** The two renderings of the constructor are well formed for the same
    classes, and the statement does what the function does. *)
Lemma ctor_stmt_agrees {Obj : Type} (C : class_decl) :
  match FluidState_ctor_stmt C, @FluidState_ctor Obj C with
  | Some s, Some body =>
      forall (this : ref) (w : world Obj) (n : nat),
        exec (S n) this s w = Some (Normal, snd (body w))
  | None, None => True
  | _, _ => False
  end.
Proof.
  unfold FluidState_ctor_stmt, FluidState_ctor.
  destruct (contract_reads C "numPhases") as [nP |]; [| exact I].
  destruct (contract_reads C "numComponents") as [nC |]; [| exact I].
  destruct (contract_reads C "numSolvents") as [nS |]; [| exact I].
  intros this w n. reflexivity.
Qed.

(** The statement of an accessor does what the function does. *)
Lemma accessor_stmt_agrees {Scalar Obj : Type} (this : ref) (c : call)
      (w : world Obj) (n : nat) :
  exists e,
    @FluidState_call Scalar Obj this c w = (Thrown e, w) /\
    exec (S n) this (accessor_stmt (callee c)) w = Some (Throws e, w).
Proof.
  destruct c; eexists; split; reflexivity.
Qed.

(** C10.  Every operation of the contract ends, from every receiver and
    state: the body of the constructor (for a class it is well formed
    for), of each accessor and of each [asImp_] holds no loop and runs to
    its end within one step, the constructor completing normally with the
    state unchanged, the accessor throwing at once, the cast returning
    its reference. *)
Theorem operations_terminate
        {Obj : Type} (op : operation) (s : stmt) :
  body_of op = Some s ->
  forall (this : ref) (w : world Obj) (fuel : nat),
    (1 <= fuel)%nat ->
    straight_line s = true /\
    exec fuel this s w = Some (ends_with op this w) /\
    ends_with op this w
    = match op with
      | op_ctor _ => (Normal, w)
      | op_accessor c =>
          (Throws (Exception "Dune::NotImplemented"
                             (thrown_text (callee c))), w)
      | op_asImp_ => (Returns (Ref (target this) AsImplementation Mutable), w)
      | op_asImp_const =>
          (Returns (Ref (target this) AsImplementation Const), w)
      end.
Proof.
  intros Hs this w fuel Hfuel.
  destruct fuel as [| n]; [lia |].
  destruct op as [C | c | |]; simpl in Hs.
  - destruct (ctor_stmt_shape C s Hs) as (nP & nC & nS & ->).
    split; [reflexivity |]. split; reflexivity.
  - injection Hs as <-.
    split; [destruct c; reflexivity |].
    split; destruct c; reflexivity.
  - injection Hs as <-. split; [reflexivity |]. split; reflexivity.
  - injection Hs as <-. split; [reflexivity |]. split; reflexivity.
Qed.

Lemma operations_terminate_witness :
  straight_line
    (If 0 (Seq (DeclInt "i")
          (Seq (Assign "i" 2) (Seq (Assign "i" 2) (Assign "i" 1)))))
  = true /\
  exec 1 some_object
       (If 0 (Seq (DeclInt "i")
             (Seq (Assign "i" 2) (Seq (Assign "i" 2) (Assign "i" 1)))))
       busy_world
  = Some (ends_with
            (op_ctor (@Implementation_class Z unit (stub two_phase_constants)))
            some_object busy_world) /\
  ends_with (op_ctor (@Implementation_class Z unit (stub two_phase_constants)))
            some_object busy_world
  = (Normal, busy_world).
Proof.
  apply (@operations_terminate unit
           (op_ctor (@Implementation_class Z unit (stub two_phase_constants)))
           _ eq_refl some_object busy_world 1%nat).
  lia.
Defined.


(** ** Beyond the contract's own words *)

Lemma thrown_text_injective (a b : accessor) :
  thrown_text a = thrown_text b -> a = b.
Proof.
  destruct a, b; intros H; try reflexivity; vm_compute in H; discriminate H.
Qed.

(** X2.  The contract's bodies do not build on one another: an accessor
    the implementation leaves alone throws [Dune::NotImplemented] with its
    own message and keeps the state, whichever other accessors the
    implementation defines. *)
Theorem untouched_accessor_throws
        {Scalar Obj : Type} (I : Implementation Scalar Obj)
        (this : ref) (c : call) (w : world Obj) :
  overrides I (callee c) = false ->
  invoke I this c w
  = (Thrown (Exception "Dune::NotImplemented" (thrown_text (callee c))), w).
Proof.
  intros H. rewrite (invoke_default I this c H).
  apply FluidState_call_throws.
Qed.

Lemma untouched_accessor_throws_witness :
  invoke mass_only some_object (call_concentration 0 1) busy_world
  = (Thrown (Exception "Dune::NotImplemented" "FluidState::concentration()"),
     busy_world).
Proof.
  exact (@untouched_accessor_throws Z unit mass_only some_object
           (call_concentration 0 1) busy_world eq_refl).
Defined.

(** X3.  What a call on the contract's bodies throws tells which accessor
    was called: two calls that end alike, on any receivers, arguments and
    states, are calls of the same accessor. *)
Theorem outcome_identifies_accessor
        {Scalar Obj : Type} (this this' : ref) (c c' : call)
        (w w' : world Obj) :
  fst (@FluidState_call Scalar Obj this c w)
  = fst (@FluidState_call Scalar Obj this' c' w') ->
  callee c = callee c'.
Proof.
  rewrite !FluidState_call_throws. simpl. intros H.
  injection H as H. apply thrown_text_injective. exact H.
Qed.

Lemma outcome_identifies_accessor_witness :
  callee (call_fugacity 0) = callee (call_fugacity 9).
Proof.
  apply (@outcome_identifies_accessor Z unit some_object (asImp some_object)
           (call_fugacity 0) (call_fugacity 9) busy_world busy_world).
  reflexivity.
Defined.

(** X4.  A constant the implementing class declares hides the contract's
    enumerator of that name: looked up on the implementing class it has the
    implementation's value, looked up on the contract it is 0 all the
    same. *)
Theorem own_constant_hides_enumerator
        {Scalar Obj : Type} (I : Implementation Scalar Obj)
        (x : string) (v : int) :
  In x required_constants ->
  assoc x (impl_constants I) = Some v ->
  qualified_lookup (Implementation_class I) x = Some v /\
  qualified_lookup FluidState_class x = Some 0.
Proof.
  intros Hx Hv. split.
  - unfold Implementation_class. apply lookup_derived_own. exact Hv.
  - apply required_in_FluidState. exact Hx.
Qed.

Lemma own_constant_hides_enumerator_witness :
  qualified_lookup (@Implementation_class Z unit (stub two_phase_constants))
                   "numComponents" = Some 2 /\
  qualified_lookup FluidState_class "numComponents" = Some 0.
Proof.
  apply (@own_constant_hides_enumerator Z unit (stub two_phase_constants)
           "numComponents" 2).
  - simpl. tauto.
  - reflexivity.
Defined.

(** X5.  [asImp_] is const-correct and transparent.  The overload chosen
    for a receiver keeps the receiver's qualifier, so reading and writing
    through the result do just what they do through the receiver: a
    [const] receiver never yields write access.  Casting twice is casting
    once. *)
Theorem asImp_const_correct (this : ref) :
  qualifier (asImp this) = qualifier this /\
  target (asImp this) = target this /\
  seen_as (asImp this) = AsImplementation /\
  asImp (asImp this) = asImp this /\
  forall (Obj : Type) (v : Obj) (w : world Obj),
    load (asImp this) w = load this w /\
    store (asImp this) v w = store this v w.
Proof.
  destruct this as [l s [|]].
  - do 4 (split; [reflexivity |]). intros Obj v w. split; reflexivity.
  - do 4 (split; [reflexivity |]). intros Obj v w. split; reflexivity.
Qed.
